(** * Cogni chatbot back end: the recommendation engine of [backend/main.py]

    A shallow embedding of the FastAPI handler [get_recommendation] and of the
    pure functions it calls, and of the earlier handler kept in
    [backend/.ipynb_checkpoints/main-checkpoint.py], followed by the
    properties the specification states about them and by further properties
    read off the code.

    Conventions.
    - A Python [str] is a Rocq [string] holding the UTF-8 bytes of the text:
      equality of two well-formed texts is equality of their encodings, and
      [urllib.parse.quote] works on exactly these bytes.
    - A Python [int] is a [Z].
    - [x in xs] on a list is [bool_decide (x ∈ xs)].
    - A dict literal read with [.get] is a [gmap string _]; a dict that is
      iterated is an association list in insertion order.
    - [raise], [try ... except] and [logging.error] live in a small
      error-and-log monad, [Handler]. *)

From Stdlib Require Import ZArith NArith Ascii DecimalString DecimalZ DecimalPos.
From stdpp Require Import base decidable option list strings gmap.

Local Open Scope Z_scope.
Local Open Scope string_scope.

(** ** Python string primitives *)

Module PyStr.

(** [not s] for a [str]: only the empty string is falsy. *)
Definition truthy (s : string) : bool :=
  match s with
  | EmptyString => false
  | String _ _ => true
  end.

(** [str(n)] for an [int]: decimal digits, a leading [-] when negative. *)
Definition str_int (n : Z) : string := NilZero.string_of_int (Z.to_int n).

(** Reading a decimal numeral back. *)
Definition int_of_str (s : string) : option Z :=
  Z.of_int <$> NilZero.int_of_string s.

(** [sep.join(items)]. *)
Fixpoint join (sep : string) (items : list string) : string :=
  match items with
  | [] => ""
  | [x] => x
  | x :: rest => x +:+ sep +:+ join sep rest
  end.

(** [s.split(sep)] for a one-character separator. *)
Fixpoint split_on (sep : ascii) (s : string) : list string :=
  match s with
  | EmptyString => [""]
  | String c s' =>
      if Ascii.eqb c sep then "" :: split_on sep s'
      else match split_on sep s' with
           | [] => [String c ""]
           | w :: ws => String c w :: ws
           end
  end.

(** [s.partition(sep)] without the separator: the text before the first
    [sep] and the text after it. *)
Fixpoint partition (sep : ascii) (s : string) : string * string :=
  match s with
  | EmptyString => ("", "")
  | String c s' =>
      if Ascii.eqb c sep then ("", s')
      else let '(a, b) := partition sep s' in (String c a, b)
  end.

(** Every byte of [s] satisfies [p]. *)
Fixpoint str_all (p : ascii → bool) (s : string) : bool :=
  match s with
  | EmptyString => true
  | String c s' => p c && str_all p s'
  end.

(** The byte [sep] does not occur in [s]. *)
Definition free_of (sep : ascii) (s : string) : bool :=
  str_all (λ c, negb (Ascii.eqb c sep)) s.

(** A non-empty string made of ASCII white space only. *)
Definition whitespace_only (s : string) : Prop :=
  s ≠ "" ∧ str_all Ascii.is_space s = true.

Definition nl : string := String "010" "".

End PyStr.

(** ** Percent-encoding: [urllib.parse.quote] and its inverse *)

Module Url.

Import PyStr.

Definition in_range (lo hi c : ascii) : bool :=
  ((N_of_ascii lo <=? N_of_ascii c) && (N_of_ascii c <=? N_of_ascii hi))%N.

(** [_ALWAYS_SAFE]: letters, digits and [_.-~]. *)
Definition always_safe (c : ascii) : bool :=
  in_range "A" "Z" c || in_range "a" "z" c || in_range "0" "9" c
  || bool_decide (c ∈ ["_"; "."; "-"; "~"]%char).

Definition hex_digit (n : N) : ascii :=
  default "0"%char (String.get (N.to_nat n) "0123456789ABCDEF").

(** ['%{:02X}'.format(b)]. *)
Definition percent_hex (c : ascii) : string :=
  String "%" (String (hex_digit (N_of_ascii c / 16))
             (String (hex_digit (N_of_ascii c mod 16)) "")).

Definition quote_byte (safe : list ascii) (c : ascii) : string :=
  if always_safe c || bool_decide (c ∈ safe) then String c "" else percent_hex c.

Fixpoint quote_from_bytes (safe : list ascii) (bs : string) : string :=
  match bs with
  | EmptyString => ""
  | String c bs' => quote_byte safe c +:+ quote_from_bytes safe bs'
  end.

(** [quote(string)] with its default [safe='/']. *)
Definition quote (s : string) : string := quote_from_bytes ["/"%char] s.

Definition hex_val (c : ascii) : option N :=
  if in_range "0" "9" c then Some (N_of_ascii c - 48)%N
  else if in_range "A" "F" c then Some (N_of_ascii c - 55)%N
  else if in_range "a" "f" c then Some (N_of_ascii c - 87)%N
  else None.

(** Percent-decoding: [%XY] with two hexadecimal digits is the byte [XY];
    every other byte stands for itself. *)
Fixpoint unquote (s : string) : string :=
  match s with
  | EmptyString => ""
  | String c s' =>
      if Ascii.eqb c "%" then
        match s' with
        | String h (String l rest) =>
            match hex_val h, hex_val l with
            | Some a, Some b => String (ascii_of_N (16 * a + b)) (unquote rest)
            | _, _ => String c (unquote s')
            end
        | _ => String c (unquote s')
        end
      else String c (unquote s')
  end.

(** The query component: what follows the first [?]. *)
Definition query_of (url : string) : string := (partition "?" url).2.

(** The [key=value] items of the query, in order, values still encoded. *)
Definition query_items (url : string) : list (string * string) :=
  partition "=" <$> split_on "&" (query_of url).

(** The first value stored under [key] in a list of items. *)
Fixpoint assoc (key : string) (items : list (string * string)) : option string :=
  match items with
  | [] => None
  | (k, v) :: rest => if String.eqb k key then Some v else assoc key rest
  end.

(** The percent-decoded value of the first item named [key]. *)
Definition query_param (key : string) (url : string) : option string :=
  unquote <$> assoc key (query_items url).

End Url.

(** ** The request model *)

Module Schema.

(** [class RecommendationRequest(BaseModel)], lines 10-16. *)
Record RecommendationRequest := {
  org_type : string;
  team_size : string;
  team_roles : list string;
  client_volume : string;
  services : list string;
  specializations : list string
}.

(** A field that is present in the body, as the check against the declared
    type of the field leaves it: rejected ([null], or a value of another type
    that the model does not accept), or accepted as a value of that type. *)
Inductive checked (A : Type) :=
  | Rejected
  | Accepted (a : A).

Arguments Rejected {A}.
Arguments Accepted {A} a.

(** The body of a request, a JSON object: each field of the model is absent
    ([None]) or present. *)
Record JsonBody := {
  body_org_type : option (checked string);
  body_team_size : option (checked string);
  body_team_roles : option (checked (list string));
  body_client_volume : option (checked string);
  body_services : option (checked (list string));
  body_specializations : option (checked (list string))
}.

(** A field declared without a default must be present and accepted. *)
Definition required {A} (f : option (checked A)) : option A :=
  match f with
  | Some (Accepted a) => Some a
  | Some Rejected => None
  | None => None
  end.

(** A field declared with a default may be absent; when present it must be
    accepted. *)
Definition defaulted {A} (d : A) (f : option (checked A)) : option A :=
  match f with
  | Some (Accepted a) => Some a
  | Some Rejected => None
  | None => Some d
  end.

(** Validation against the model: the three [str] fields carry no default and
    are required, the three [List[str]] fields default to [[]]; a present
    field of the wrong type fails validation whichever field it is. *)
Definition validate (b : JsonBody) : option RecommendationRequest :=
  o ← required (body_org_type b);
  t ← required (body_team_size b);
  r ← defaulted [] (body_team_roles b);
  c ← required (body_client_volume b);
  s ← defaulted [] (body_services b);
  p ← defaulted [] (body_specializations b);
  Some {| org_type := o;
          team_size := t;
          team_roles := r;
          client_volume := c;
          services := s;
          specializations := p |}.

(** A required field is absent. *)
Definition absent (b : JsonBody) : Prop :=
  body_org_type b = None ∨ body_team_size b = None ∨ body_client_volume b = None.

(** A present field has the wrong type. *)
Definition ill_typed (b : JsonBody) : Prop :=
  body_org_type b = Some Rejected ∨ body_team_size b = Some Rejected
  ∨ body_team_roles b = Some Rejected ∨ body_client_volume b = Some Rejected
  ∨ body_services b = Some Rejected ∨ body_specializations b = Some Rejected.

(** A required field is present as the empty string. *)
Definition blank (b : JsonBody) : Prop :=
  body_org_type b = Some (Accepted "") ∨ body_team_size b = Some (Accepted "")
  ∨ body_client_volume b = Some (Accepted "").

End Schema.

(** ** The business logic *)

Module Engine.

Import PyStr Url Schema.

(** [determine_recommendation], lines 53-82, on strings and lists of
    strings.  [Dyn.determine_recommendation_py] below is the same body over
    untyped Python values, where a test can raise and a body can end without
    [return]; the two are proved to agree on well-typed arguments. *)
Definition determine_recommendation
    (org_type team_size client_volume : string)
    (specializations services : list string) : string * Z :=
  if bool_decide (org_type = "Insurance Provider / EAS") then
    ("Enterprise Access (Insurance & EAS)", 20)
  else if bool_decide (org_type = "Mental Health Practitioner – Private Practice") then
    if bool_decide (team_size ∈ ["1 (Solo practice)"; "2–5 providers"]) then
      ("Fresh Start", 4)
    else if bool_decide (team_size = "6–15 providers") then
      ("Practice Plus", 8)
    else
      ("Community Access", 16)
  else if bool_decide (org_type = "Mental Health or Healthcare Provider – Public System") then
    if bool_decide (team_size ∈ ["16–50 providers"; "51+ providers"]) then
      ("Enterprise Care (Public Health)", 20)
    else
      ("Practice Plus", 6)
  else if bool_decide (org_type = "Home Care or Specialized Residential Services") then
    ("Community Access", 20)
  else if bool_decide ("Trauma-informed care" ∈ specializations) then
    ("Practice Plus", 8)
  else if bool_decide ("Group therapy or workshops" ∈ services)
          && bool_decide (team_size ∈ ["16–50 providers"; "51+ providers"]) then
    ("Community Access", 20)
  else
    ("Community Access", 10).

(** The [pricing] dict of [calculate_price], lines 86-92. *)
Definition pricing : gmap string Z :=
  <["Fresh Start" := 49]>
  (<["Practice Plus" := 89]>
  (<["Community Access" := 49]>
  (<["Enterprise Care (Public Health)" := 199]>
  (<["Enterprise Access (Insurance & EAS)" := 199]> ∅)))).

(** [calculate_price], line 93: [seats * pricing.get(package, 49)]. *)
Definition calculate_price (package : string) (seats : Z) : Z :=
  seats * default 49 (pricing !! package).

(** The values of the [params] dict are a [str] or an [int]. *)
Inductive pyval :=
  | VStr (s : string)
  | VInt (n : Z).

(** [str(v)]. *)
Definition str (v : pyval) : string :=
  match v with
  | VStr s => s
  | VInt n => str_int n
  end.

Definition base_url : string :=
  "https://cogni-recommendation-chuiv5x8slzxktq3mzbb5p.streamlit.app".

(** [generate_streamlit_url], lines 95-104.  [params.items()] yields the
    entries in insertion order. *)
Definition generate_streamlit_url (package : string) (seats : Z) : string :=
  let params : list (string * pyval) :=
    [("tier", VStr package); ("seats", VInt seats); ("utm_source", VStr "chatbot")] in
  let query := join "&" ((λ kv, kv.1 +:+ "=" +:+ quote (str kv.2)) <$> params) in
  base_url +:+ "/?" +:+ query.

(** The [features] dict of [get_features], lines 108-145. *)
Definition features : gmap string (list string) :=
  <["Fresh Start" :=
      ["Basic self-guided tools";
       "AI self-assessment";
       "1 group session/month";
       "1 report template"]]>
  (<["Practice Plus" :=
      ["Full AI suite";
       "Group modules";
       "2 sessions/month";
       "Custom reports";
       "Provider dashboard"]]>
  (<["Community Access" :=
      ["Multilingual AI tools";
       "Scalable group support";
       "Onboarding support";
       "Usage dashboard";
       "Volume discounts for 500+ users"]]>
  (<["Enterprise Care (Public Health)" :=
      ["Full AI triage";
       "Post-session care";
       "Real-time analytics";
       "API access";
       "Client monitoring & support";
       "Unlimited video, audio, and text-based monitoring tools"]]>
  (<["Enterprise Access (Insurance & EAS)" :=
      ["API integration";
       "Branded self-assessments";
       "Usage analytics";
       "Employer group modules";
       "Outcome dashboards";
       "Unlimited monitoring tools"]]> ∅)))).

(** [get_features], line 146: [features.get(package, [])]. *)
Definition get_features (package : string) : list string :=
  default [] (features !! package).

(** [generate_sales_message], lines 148-165. *)
Definition generate_sales_message
    (package : string) (seats price : Z) (data : RecommendationRequest) : string :=
  let features := join nl ((λ f, "- " +:+ f) <$> get_features package) in
  nl +:+
  "    **Recommended Package:** " +:+ package +:+ nl +:+
  nl +:+
  "    Thank you for your details! Based on your " +:+ data.(Schema.org_type) +:+
  " organization with " +:+ data.(Schema.team_size) +:+
  " team and " +:+ data.(Schema.client_volume) +:+
  " client volume, we recommend:" +:+ nl +:+
  nl +:+
  "    **Package:** " +:+ package +:+ "  " +:+ nl +:+
  "    **Seats:** " +:+ str_int seats +:+ "  " +:+ nl +:+
  "    **Price:** $" +:+ str_int price +:+ "  " +:+ nl +:+
  nl +:+
  "    **Key Features:**  " +:+ nl +:+
  "    " +:+ features +:+ nl +:+
  nl +:+
  "    [📊 Click here for your detailed report](" +:+
  generate_streamlit_url package seats +:+ ")" +:+ nl +:+
  "    ".

End Engine.

(** ** The decision rules over untyped values *)

Module Dyn.

(** The Python values the rules can meet. *)
#[warnings="-register-all"] Inductive value :=
  | PNone
  | PStr (s : string)
  | PInt (n : Z)
  | PList (items : list value)
  | PTuple (items : list value).

Inductive error :=
  | TypeError.

(** An expression either has a value or raises. *)
Inductive result (A : Type) :=
  | Value (a : A)
  | Raise (e : error).

Arguments Value {A} a.
Arguments Raise {A} e.

(** [a == b]: never raises; values of different types are unequal, lists and
    tuples are compared item by item. *)
Fixpoint py_eq (a b : value) : bool :=
  match a, b with
  | PNone, PNone => true
  | PStr s, PStr t => String.eqb s t
  | PInt m, PInt n => Z.eqb m n
  | PList xs, PList ys =>
      (fix items (xs ys : list value) : bool :=
         match xs, ys with
         | [], [] => true
         | x :: xs', y :: ys' => py_eq x y && items xs' ys'
         | _, _ => false
         end) xs ys
  | PTuple xs, PTuple ys =>
      (fix items (xs ys : list value) : bool :=
         match xs, ys with
         | [], [] => true
         | x :: xs', y :: ys' => py_eq x y && items xs' ys'
         | _, _ => false
         end) xs ys
  | _, _ => false
  end.

(** [needle in haystack] for two strings. *)
Fixpoint substring (needle haystack : string) : bool :=
  String.prefix needle haystack
  || match haystack with
     | EmptyString => false
     | String _ rest => substring needle rest
     end.

(** [x in c]: a list or tuple is searched with [==]; a string accepts only a
    string on the left; [None] and integers are not iterable. *)
Definition py_in (x c : value) : result bool :=
  match c with
  | PList items => Value (existsb (py_eq x) items)
  | PTuple items => Value (existsb (py_eq x) items)
  | PStr haystack =>
      match x with
      | PStr needle => Value (substring needle haystack)
      | _ => Raise TypeError
      end
  | PNone => Raise TypeError
  | PInt _ => Raise TypeError
  end.

(** A statement raises, executes a [return], or runs to its end ([None]). *)
Definition stmt : Type := result (option value).

Definition return_ (v : value) : stmt := Value (Some v).

(** The empty [else]. *)
Definition pass : stmt := Value None.

(** [s1] followed by [s2]. *)
Definition seq (s1 s2 : stmt) : stmt :=
  match s1 with
  | Value None => s2
  | Value (Some v) => Value (Some v)
  | Raise e => Raise e
  end.

(** [if c: s1 else: s2]. *)
Definition if_ (c : result bool) (s1 s2 : stmt) : stmt :=
  match c with
  | Value true => s1
  | Value false => s2
  | Raise e => Raise e
  end.

(** [c1 and c2], the right operand evaluated only when the left is true. *)
Definition and_ (c1 c2 : result bool) : result bool :=
  match c1 with
  | Value true => c2
  | Value false => Value false
  | Raise e => Raise e
  end.

(** A call: a body that ends without [return] yields [None]. *)
Definition call (body : stmt) : result value :=
  match body with
  | Value (Some v) => Value v
  | Value None => Value PNone
  | Raise e => Raise e
  end.

Infix ";;" := seq (at level 100, right associativity).

(** [determine_recommendation], lines 53-82, statement by statement. *)
Definition determine_recommendation_py
    (org_type team_size client_volume specializations services : value)
    : result value :=
  call (
    (if_ (Value (py_eq org_type (PStr "Insurance Provider / EAS")))
       (return_ (PTuple [PStr "Enterprise Access (Insurance & EAS)"; PInt 20]))
    (if_ (Value (py_eq org_type (PStr "Mental Health Practitioner – Private Practice")))
       (if_ (py_in team_size (PList [PStr "1 (Solo practice)"; PStr "2–5 providers"]))
          (return_ (PTuple [PStr "Fresh Start"; PInt 4]))
       (if_ (Value (py_eq team_size (PStr "6–15 providers")))
          (return_ (PTuple [PStr "Practice Plus"; PInt 8]))
          (return_ (PTuple [PStr "Community Access"; PInt 16]))))
    (if_ (Value (py_eq org_type
                   (PStr "Mental Health or Healthcare Provider – Public System")))
       (if_ (py_in team_size (PList [PStr "16–50 providers"; PStr "51+ providers"]))
          (return_ (PTuple [PStr "Enterprise Care (Public Health)"; PInt 20]))
          (return_ (PTuple [PStr "Practice Plus"; PInt 6])))
    (if_ (Value (py_eq org_type (PStr "Home Care or Specialized Residential Services")))
       (return_ (PTuple [PStr "Community Access"; PInt 20]))
       pass)))) ;;
    (if_ (py_in (PStr "Trauma-informed care") specializations)
       (return_ (PTuple [PStr "Practice Plus"; PInt 8]))
       pass) ;;
    (if_ (and_ (py_in (PStr "Group therapy or workshops") services)
               (py_in team_size (PList [PStr "16–50 providers"; PStr "51+ providers"])))
       (return_ (PTuple [PStr "Community Access"; PInt 20]))
       pass) ;;
    return_ (PTuple [PStr "Community Access"; PInt 10])).

End Dyn.

(** ** The vocabulary of the questionnaire *)

Module Vocabulary.

(** The organization categories that rules 1-4 name. *)
Definition recognized_org_types : list string :=
  ["Insurance Provider / EAS";
   "Mental Health Practitioner – Private Practice";
   "Mental Health or Healthcare Provider – Public System";
   "Home Care or Specialized Residential Services"].

(** The five package tiers. *)
Definition known_tiers : list string :=
  ["Fresh Start";
   "Practice Plus";
   "Community Access";
   "Enterprise Care (Public Health)";
   "Enterprise Access (Insurance & EAS)"].

(** The values of the [return] statements of [determine_recommendation], in
    source order. *)
Definition return_sites : list (string * Z) :=
  [("Enterprise Access (Insurance & EAS)", 20);
   ("Fresh Start", 4);
   ("Practice Plus", 8);
   ("Community Access", 16);
   ("Enterprise Care (Public Health)", 20);
   ("Practice Plus", 6);
   ("Community Access", 20);
   ("Practice Plus", 8);
   ("Community Access", 20);
   ("Community Access", 10)].

(** What holds of each pair the engine can return: the tier is a key of both
    tables and the seat count is one of six positive numbers. *)
Definition served (r : string * Z) : Prop :=
  r.1 ∈ known_tiers
  ∧ (∃ rate : Z, Engine.pricing !! r.1 = Some rate
                 ∧ Engine.calculate_price r.1 r.2 = r.2 * rate)
  ∧ (∃ fs : list string, Engine.features !! r.1 = Some fs ∧ fs ≠ [])
  ∧ r.2 ∈ [4; 6; 8; 10; 16; 20].

End Vocabulary.

(** ** The endpoint *)

Module Endpoint.

Import PyStr Url Schema Engine.

(** The only exception class the handler raises itself.  [HTTPException]
    derives from [Exception]. *)
Inductive exn :=
  | HTTPException (status_code : Z) (detail : string).

Definition status_code_of (e : exn) : Z :=
  match e with HTTPException s _ => s end.

Definition detail_of (e : exn) : string :=
  match e with HTTPException _ d => d end.

(** A computation that reads and extends the error log and either raises or
    returns. *)
Definition Handler (A : Type) : Type := list string → list string * (exn + A).

#[global] Instance handler_ret : MRet Handler := λ A x log, (log, inr x).

#[global] Instance handler_bind : MBind Handler := λ A B f m log,
  match m log with
  | (log', inl e) => (log', inl e)
  | (log', inr a) => f a log'
  end.

Definition raise {A} (e : exn) : Handler A := λ log, (log, inl e).

(** [logging.error(msg)]: the root logger is set to [INFO], so the record is
    emitted. *)
Definition logging_error (msg : string) : Handler unit :=
  λ log, ((log ++ [msg])%list, inr tt).

(** [try: body  except Exception as e: handler(e)]. *)
Definition try_except {A} (body : Handler A) (handler : exn → Handler A) : Handler A :=
  λ log,
    match body log with
    | (log', inl e) => handler e log'
    | (log', inr a) => (log', inr a)
    end.

(** The dict returned on success, lines 40-47. *)
Record Recommendation := {
  recommended_package : string;
  recommended_seats : Z;
  estimated_pricing : string;
  key_features : list string;
  next_steps : string;
  sales_message : string
}.

(** What the client receives. *)
Inductive Response :=
  | Success (r : Recommendation)
  | ValidationError
  | Failure (e : exn).

Definition status (r : Response) : Z :=
  match r with
  | Success _ => 200
  | ValidationError => 422
  | Failure e => status_code_of e
  end.

Section Handler.

(** [str(e)] for an exception is the library's business. *)
Variable exn_str : exn → string.

(** [get_recommendation], lines 19-51. *)
Definition get_recommendation (data : RecommendationRequest) : Handler Recommendation :=
  try_except
    (if negb (truthy data.(org_type)) || negb (truthy data.(team_size))
        || negb (truthy data.(client_volume))
     then raise (HTTPException 422 "Missing required fields")
     else
       let '(package, seats) :=
         determine_recommendation data.(org_type) data.(team_size)
           data.(client_volume) data.(specializations) data.(services) in
       let price := calculate_price package seats in
       let streamlit_url := generate_streamlit_url package seats in
       mret {| recommended_package := package;
               recommended_seats := seats;
               estimated_pricing := "$" +:+ str_int price;
               key_features := get_features package;
               next_steps := streamlit_url;
               sales_message := generate_sales_message package seats price data |})
    (λ e,
       _ ← logging_error ("Recommendation error: " +:+ exn_str e);
       raise (HTTPException 500 (exn_str e))).

(** [POST /getRecommendation]: the framework validates the body against
    [RecommendationRequest] and answers 422 by itself when that fails;
    otherwise it runs the handler and turns an [HTTPException] into a
    response with that status. *)
Definition post_getRecommendation (b : JsonBody) (log : list string)
    : list string * Response :=
  match validate b with
  | None => (log, ValidationError)
  | Some data =>
      match get_recommendation data log with
      | (log', inr r) => (log', Success r)
      | (log', inl e) => (log', Failure e)
      end
  end.

End Handler.

(** [HTTPException.__str__] as current Starlette defines it:
    [f"{self.status_code}: {self.detail}"]. *)
Definition starlette_str (e : exn) : string :=
  str_int (status_code_of e) +:+ ": " +:+ detail_of e.

(** The guard of line 22, on its own. *)
Definition rejects (data : RecommendationRequest) : bool :=
  negb (truthy data.(org_type)) || negb (truthy data.(team_size))
  || negb (truthy data.(client_volume)).

(** Two sample requests: a white-space [org_type], and a body whose
    [org_type] is the empty string. *)
Definition blank_request : RecommendationRequest :=
  {| org_type := " ";
     team_size := "51+ providers";
     team_roles := [];
     client_volume := "High";
     services := ["Group therapy or workshops"];
     specializations := [] |}.

Definition empty_org_body : JsonBody :=
  {| body_org_type := Some (Accepted "");
     body_team_size := Some (Accepted "2–5 providers");
     body_team_roles := None;
     body_client_volume := Some (Accepted "Low");
     body_services := None;
     body_specializations := None |}.

End Endpoint.

(** ** Vocabulary for texts and links *)

Module Text.

Import PyStr Url Engine.

(** [needle in haystack] for two strings. *)
Definition contains (haystack needle : string) : Prop :=
  ∃ pre post : string, haystack = pre +:+ needle +:+ post.

(** [haystack.startswith(needle)]. *)
Definition starts (haystack needle : string) : Prop :=
  ∃ post : string, haystack = needle +:+ post.

(** The bytes a link is made of: the unreserved characters and the
    delimiters [/ : ? = & %]. *)
Definition url_byte (c : ascii) : bool :=
  always_safe c || bool_decide (c ∈ ["/"; ":"; "?"; "="; "&"; "%"]%char).

(** A byte that [quote] copies unchanged. *)
Definition kept_byte (c : ascii) : bool :=
  always_safe c || bool_decide (c ∈ ["/"%char]).

(** Line 150 of [generate_sales_message]: one bullet per feature. *)
Definition features_block (package : string) : string :=
  join nl ((λ f, "- " +:+ f) <$> get_features package).

(** The prices of the [return] statements of [determine_recommendation]. *)
Definition quoted_prices : list Z := [196; 490; 534; 712; 784; 980; 3980].

End Text.

(** ** The earlier handler, [.ipynb_checkpoints/main-checkpoint.py] *)

Module Checkpoint.

Import PyStr.

(** The exceptions met by the handler: the two [HTTPException]s it raises,
    the [KeyError] of a failed subscript, and whatever the imported functions
    raise.  All derive from [Exception]. *)
Inductive exc :=
  | HTTPExc (status_code : Z) (detail : string)
  | KeyError (key : string)
  | Raised (what : string).

Inductive outcome (A : Type) :=
  | Returns (a : A)
  | Raises (e : exc).

Arguments Returns {A} a.
Arguments Raises {A} e.

(** The dict returned on success, lines 50-60. *)
Record Answer := {
  package : string;
  seats : Z;
  price : Z;
  message : string
}.

Section Handler.

(** [schemas.InputData], [services.prediction] and [services.pricing] are
    imported, not defined here: the type of the five fields read by the
    handler, their truth value, the predictor, the two tables and
    [str.format] on a template are taken as given. *)
Variable value : Type.
Variable truth : value → bool.

Record InputData := {
  org_type : value;
  team_size : value;
  client_volume : value;
  specialization : value;
  service_model : value
}.

Variable predict_package : value → value → value → value → value → outcome (string * Z).
Variable PACKAGE_PRICE_TABLE : gmap (string * Z) Z.
Variable SALES_MESSAGES : gmap string string.
Variable format : string → Z → Z → string → string → outcome string.
Variable exc_str : exc → string.

(** The body of the [try], lines 34-60. *)
Definition attempt (data : InputData) : outcome Answer :=
  if negb (forallb truth [data.(org_type); data.(team_size); data.(client_volume)]) then
    Raises (HTTPExc 400 "Missing required fields")
  else
    match predict_package data.(org_type) data.(team_size) data.(client_volume)
            data.(specialization) data.(service_model) with
    | Raises e => Raises e
    | Returns (package, seats) =>
        let price := default (seats * 49) (PACKAGE_PRICE_TABLE !! (package, seats)) in
        match SALES_MESSAGES !! package with
        | None => Raises (KeyError package)
        | Some template =>
            match format template seats price "See included features"
                    ("/details?package=" +:+ package) with
            | Raises e => Raises e
            | Returns text =>
                Returns {| package := package;
                           seats := seats;
                           price := price;
                           message := text |}
            end
        end
    end.

(** [get_recommendation], lines 32-64: the [except Exception] clause prints
    the traceback and raises a 500 with [str(e)].  The second component is the
    list of exceptions printed. *)
Definition get_recommendation (data : InputData) (printed : list exc)
    : list exc * outcome Answer :=
  match attempt data with
  | Returns a => (printed, Returns a)
  | Raises e => ((printed ++ [e])%list, Raises (HTTPExc 500 (exc_str e)))
  end.

End Handler.

End Checkpoint.

(** * Properties of the decision rules *)

Module DecisionRules.

Import PyStr Vocabulary Engine.

(** Cases on every test of the rule chain. *)
Ltac rule_cases :=
  unfold determine_recommendation;
  repeat case_bool_decide; simpl.

(** Membership in a list literal, as a disjunction of equations. *)
Ltac mem_solve :=
  rewrite ?elem_of_cons, ?not_elem_of_cons, ?elem_of_nil in *;
  intuition congruence.

(** Every run ends at one of the [return] statements. *)
Lemma determine_recommendation_returns
    (org_type team_size client_volume : string)
    (specializations services : list string) :
  determine_recommendation org_type team_size client_volume specializations services
  ∈ return_sites.
Proof.
  rule_cases; apply list_elem_of_In; simpl; tauto.
Qed.

Lemma unrecognized_tests (org_type : string) :
  org_type ∉ recognized_org_types →
  bool_decide (org_type = "Insurance Provider / EAS") = false
  ∧ bool_decide (org_type = "Mental Health Practitioner – Private Practice") = false
  ∧ bool_decide (org_type = "Mental Health or Healthcare Provider – Public System") = false
  ∧ bool_decide (org_type = "Home Care or Specialized Residential Services") = false.
Proof.
  unfold recognized_org_types. intros H.
  repeat (apply not_elem_of_cons in H as [? H]).
  repeat split; by apply bool_decide_eq_false.
Qed.

(** C1. When [org_type] is one of the four recognized categories,
    [determine_recommendation] returns the pair that rules 1-4 prescribe:
    insurance gives Enterprise Access with 20 seats; private practice gives
    Fresh Start with 4 seats for the two smallest team sizes, Practice Plus
    with 8 seats for 6-15 providers and Community Access with 16 seats
    otherwise; the public system gives Enterprise Care with 20 seats for the
    two largest team sizes and Practice Plus with 6 seats otherwise; home care
    gives Community Access with 20 seats.  The result does not depend on
    [specializations] or [services]. *)
Theorem recognized_org_rules
    (org_type team_size client_volume : string)
    (specializations services : list string) :
  let result :=
    determine_recommendation org_type team_size client_volume specializations services in
  (org_type = "Insurance Provider / EAS" →
     result = ("Enterprise Access (Insurance & EAS)", 20))
  ∧ (org_type = "Mental Health Practitioner – Private Practice" →
       (team_size ∈ ["1 (Solo practice)"; "2–5 providers"] →
          result = ("Fresh Start", 4))
       ∧ (team_size = "6–15 providers" → result = ("Practice Plus", 8))
       ∧ (team_size ∉ ["1 (Solo practice)"; "2–5 providers"; "6–15 providers"] →
            result = ("Community Access", 16)))
  ∧ (org_type = "Mental Health or Healthcare Provider – Public System" →
       (team_size ∈ ["16–50 providers"; "51+ providers"] →
          result = ("Enterprise Care (Public Health)", 20))
       ∧ (team_size ∉ ["16–50 providers"; "51+ providers"] →
            result = ("Practice Plus", 6)))
  ∧ (org_type = "Home Care or Specialized Residential Services" →
       result = ("Community Access", 20))
  ∧ (org_type ∈ recognized_org_types →
       ∀ specializations' services' : list string,
         result =
         determine_recommendation org_type team_size client_volume
           specializations' services').
Proof.
  cbv zeta. split; [| split; [| split; [| split]]].
  - intros ->. reflexivity.
  - intros ->. split; [| split].
    + intros H. rule_cases; done.
    + intros ->. reflexivity.
    + intros H. rule_cases; try done; mem_solve.
  - intros ->. split; intros H; rule_cases; done.
  - intros ->. reflexivity.
  - unfold recognized_org_types. intros H sp' sv'.
    rule_cases; try done; mem_solve.
Qed.

Lemma recognized_org_rules_witness :
  determine_recommendation "Mental Health Practitioner – Private Practice"
    "2–5 providers" "Low" ["Trauma-informed care"] ["Group therapy or workshops"]
  = ("Fresh Start", 4).
Proof.
  apply (recognized_org_rules "Mental Health Practitioner – Private Practice"
           "2–5 providers" "Low" ["Trauma-informed care"]
           ["Group therapy or workshops"]).
  - reflexivity.
  - apply list_elem_of_In. simpl. auto.
Defined.

(** C2. When [org_type] is none of the four recognized categories: with
    "Trauma-informed care" among the specializations the result is Practice
    Plus with 8 seats, whatever the other fields; otherwise, with "Group
    therapy or workshops" among the services and one of the two largest team
    sizes, it is Community Access with 20 seats; otherwise it is the default,
    Community Access with 10 seats. *)
Theorem unrecognized_org_rules
    (org_type team_size client_volume : string)
    (specializations services : list string) :
  org_type ∉ recognized_org_types →
  let result :=
    determine_recommendation org_type team_size client_volume specializations services in
  ("Trauma-informed care" ∈ specializations → result = ("Practice Plus", 8))
  ∧ ("Trauma-informed care" ∉ specializations →
       "Group therapy or workshops" ∈ services →
       team_size ∈ ["16–50 providers"; "51+ providers"] →
       result = ("Community Access", 20))
  ∧ ("Trauma-informed care" ∉ specializations →
       ¬ ("Group therapy or workshops" ∈ services
          ∧ team_size ∈ ["16–50 providers"; "51+ providers"]) →
       result = ("Community Access", 10)).
Proof.
  intros Horg. cbv zeta. unfold determine_recommendation.
  destruct (unrecognized_tests _ Horg) as (-> & -> & -> & ->).
  split; [| split].
  - intros H. by rewrite bool_decide_eq_true_2.
  - intros H Hs Ht. by rewrite bool_decide_eq_false_2, !bool_decide_eq_true_2.
  - intros H Hn. rewrite bool_decide_eq_false_2 by done.
    repeat case_bool_decide; simpl; tauto.
Qed.

Lemma unrecognized_org_rules_witness :
  determine_recommendation " " "51+ providers" "High" ["Trauma-informed care"]
    ["Group therapy or workshops"] = ("Practice Plus", 8)
  ∧ determine_recommendation "Community clinic" "51+ providers" "High" []
      ["Group therapy or workshops"] = ("Community Access", 20)
  ∧ determine_recommendation "Community clinic" "6–15 providers" "High" []
      ["Group therapy or workshops"] = ("Community Access", 10).
Proof.
  split; [| split].
  - apply (unrecognized_org_rules " " "51+ providers" "High"
             ["Trauma-informed care"] ["Group therapy or workshops"]).
    + unfold recognized_org_types. mem_solve.
    + apply list_elem_of_In. simpl. auto.
  - apply (unrecognized_org_rules "Community clinic" "51+ providers" "High" []
             ["Group therapy or workshops"]).
    + unfold recognized_org_types. mem_solve.
    + mem_solve.
    + apply list_elem_of_In. simpl. auto.
    + apply list_elem_of_In. simpl. auto.
  - apply (unrecognized_org_rules "Community clinic" "6–15 providers" "High" []
             ["Group therapy or workshops"]).
    + unfold recognized_org_types. mem_solve.
    + mem_solve.
    + mem_solve.
Defined.

(** C7. Two calls that agree on [org_type], [team_size], [specializations]
    and [services] return the same pair, whatever their [client_volume]. *)
Theorem client_volume_ignored
    (org_type team_size client_volume client_volume' : string)
    (specializations services : list string) :
  determine_recommendation org_type team_size client_volume specializations services
  = determine_recommendation org_type team_size client_volume' specializations services.
Proof.
  unfold determine_recommendation. reflexivity.
Qed.

(** On strings [==] is the equality test of the typed rules. *)
Lemma py_eq_str (s t : string) :
  Dyn.py_eq (Dyn.PStr s) (Dyn.PStr t) = bool_decide (s = t).
Proof.
  simpl. destruct (String.eqb_spec s t) as [-> | Hne].
  - by rewrite bool_decide_eq_true_2.
  - by rewrite bool_decide_eq_false_2.
Qed.

(** On a string and a list of strings [in] does not raise and is the
    membership test of the typed rules. *)
Lemma py_in_strs (x : string) (items : list string) :
  Dyn.py_in (Dyn.PStr x) (Dyn.PList (Dyn.PStr <$> items))
  = Dyn.Value (bool_decide (x ∈ items)).
Proof.
  unfold Dyn.py_in. f_equal.
  induction items as [| y items IH].
  - rewrite bool_decide_eq_false_2 by apply not_elem_of_nil. reflexivity.
  - rewrite fmap_cons. cbn [existsb]. rewrite py_eq_str, IH.
    destruct (decide (x = y)) as [-> | Hne].
    + rewrite (bool_decide_eq_true_2 (y = y)) by done.
      rewrite (bool_decide_eq_true_2 (y ∈ y :: items)) by (apply elem_of_cons; by left).
      reflexivity.
    + rewrite (bool_decide_eq_false_2 (x = y)) by done. simpl.
      apply bool_decide_ext. rewrite elem_of_cons. tauto.
Qed.

(** C8. Called with strings for [org_type], [team_size], [client_volume]
    and lists of strings, empty or not, for [specializations] and [services],
    the body of [determine_recommendation] raises no exception and does not
    run off its end: it executes a [return] whose value is a pair of a tier
    name and a seat count, the pair of one of its [return] statements (and the
    one the rules over strings compute). *)
Theorem determine_recommendation_never_raises
    (org_type team_size client_volume : string)
    (specializations services : list string) :
  ∃ (tier : string) (seats : Z),
    Dyn.determine_recommendation_py (Dyn.PStr org_type) (Dyn.PStr team_size)
      (Dyn.PStr client_volume) (Dyn.PList (Dyn.PStr <$> specializations))
      (Dyn.PList (Dyn.PStr <$> services))
    = Dyn.Value (Dyn.PTuple [Dyn.PStr tier; Dyn.PInt seats])
    ∧ (tier, seats) ∈ return_sites
    ∧ (tier, seats) =
      determine_recommendation org_type team_size client_volume
        specializations services.
Proof.
  pose proof (determine_recommendation_returns org_type team_size client_volume
                specializations services) as Hin.
  exists (determine_recommendation org_type team_size client_volume
            specializations services).1,
         (determine_recommendation org_type team_size client_volume
            specializations services).2.
  split; [| split; [by rewrite <- surjective_pairing
                   | by rewrite <- surjective_pairing]].
  clear Hin. unfold Dyn.determine_recommendation_py.
  change (Dyn.PList [Dyn.PStr "1 (Solo practice)"; Dyn.PStr "2–5 providers"])
    with (Dyn.PList (Dyn.PStr <$> ["1 (Solo practice)"; "2–5 providers"])).
  change (Dyn.PList [Dyn.PStr "16–50 providers"; Dyn.PStr "51+ providers"])
    with (Dyn.PList (Dyn.PStr <$> ["16–50 providers"; "51+ providers"])).
  rewrite !py_eq_str, !py_in_strs.
  unfold determine_recommendation.
  repeat case_bool_decide; reflexivity.
Qed.

Lemma served_intro (tier : string) (seats rate : Z) (fs : list string) :
  tier ∈ known_tiers →
  pricing !! tier = Some rate →
  features !! tier = Some fs →
  fs ≠ [] →
  seats ∈ [4; 6; 8; 10; 16; 20] →
  served (tier, seats).
Proof.
  intros Ht Hp Hf Hne Hs. unfold served, calculate_price. simpl.
  rewrite Hp. simpl. eauto 10.
Qed.

Ltac served_site :=
  eapply served_intro;
  [ unfold known_tiers; mem_solve
  | vm_compute; reflexivity
  | vm_compute; reflexivity
  | discriminate
  | mem_solve ].

Lemma return_sites_served : Forall served return_sites.
Proof.
  unfold return_sites.
  repeat (apply Forall_cons; split; [served_site |]).
  apply Forall_nil_2.
Qed.

(** With [None] for [specializations] the membership test of line 74 raises,
    unless one of the rules 1-4 has returned before it. *)
Example none_specializations_raises :
  Dyn.determine_recommendation_py (Dyn.PStr "Community clinic")
    (Dyn.PStr "51+ providers") (Dyn.PStr "High") Dyn.PNone (Dyn.PList [])
  = Dyn.Raise Dyn.TypeError.
Proof. reflexivity. Qed.

Example none_specializations_unread :
  Dyn.determine_recommendation_py (Dyn.PStr "Insurance Provider / EAS")
    (Dyn.PStr "51+ providers") (Dyn.PStr "High") Dyn.PNone Dyn.PNone
  = Dyn.Value (Dyn.PTuple [Dyn.PStr "Enterprise Access (Insurance & EAS)";
                           Dyn.PInt 20]).
Proof. reflexivity. Qed.

(** The two tables have the five tier names as their keys. *)
Lemma pricing_keys (t : string) : t ∈ known_tiers ↔ is_Some (pricing !! t).
Proof.
  unfold known_tiers, pricing. rewrite !elem_of_cons, elem_of_nil.
  rewrite !lookup_insert_is_Some, lookup_empty, is_Some_alt. intuition congruence.
Qed.

Lemma features_keys (t : string) : t ∈ known_tiers ↔ is_Some (features !! t).
Proof.
  unfold known_tiers, features. rewrite !elem_of_cons, elem_of_nil.
  rewrite !lookup_insert_is_Some, lookup_empty, is_Some_alt. intuition congruence.
Qed.

(** C9. The tier returned by [determine_recommendation] is one of the five
    names that are keys of both the pricing table and the features table, and
    the seat count is one of 4, 6, 8, 10, 16, 20, hence positive; so on such a
    tier [calculate_price] uses the rate stored in the table, not the default,
    and [get_features] does not return the empty list. *)
Theorem engine_results_served
    (org_type team_size client_volume : string)
    (specializations services : list string) :
  let r :=
    determine_recommendation org_type team_size client_volume specializations services in
  r.1 ∈ known_tiers
  ∧ r.1 ∈ dom pricing
  ∧ r.1 ∈ dom features
  ∧ (∀ t : string, t ∈ known_tiers ↔ t ∈ dom pricing ∧ t ∈ dom features)
  ∧ r.2 ∈ [4; 6; 8; 10; 16; 20]
  ∧ 0 < r.2
  ∧ (∃ rate : Z, pricing !! r.1 = Some rate ∧ calculate_price r.1 r.2 = r.2 * rate)
  ∧ get_features r.1 ≠ [].
Proof.
  cbv zeta.
  pose proof (determine_recommendation_returns org_type team_size client_volume
                specializations services) as Hin.
  pose proof (proj1 (Forall_forall _ _) return_sites_served _ Hin)
    as (Hk & Hp & (fs & Hf & Hne) & Hs).
  split; [done |]. split.
  { apply elem_of_dom. destruct Hp as (rate & Hp & _). eauto. }
  split.
  { apply elem_of_dom. eauto. }
  split.
  { intros t. rewrite !elem_of_dom. split.
    - intros Ht. split; [by apply pricing_keys | by apply features_keys].
    - intros [Ht _]. by apply pricing_keys. }
  split; [done |]. split.
  { revert Hs. rewrite !elem_of_cons, elem_of_nil. lia. }
  split; [done |].
  unfold get_features. rewrite Hf. done.
Qed.

End DecisionRules.

(** * Properties of the pricing and feature tables *)

Module Tables.

Import Vocabulary Engine.

(** A string outside the five tier names is a key of neither table. *)
Lemma unknown_tier_lookup (package : string) :
  package ∉ known_tiers →
  pricing !! package = None ∧ features !! package = None.
Proof.
  unfold known_tiers. rewrite !not_elem_of_cons. intros (? & ? & ? & ? & ? & _).
  unfold pricing, features.
  split; rewrite !lookup_insert_ne by done; apply lookup_empty.
Qed.

(** C4. [calculate_price] multiplies the seat count by the rate of the tier:
    49 for Fresh Start, 89 for Practice Plus, 49 for Community Access, 199 for
    both Enterprise tiers, and 49 for any string that is not in the table.  The
    three worked examples cost 3980, 196 and 712. *)
Theorem calculate_price_table (package : string) (seats : Z) :
  calculate_price "Fresh Start" seats = seats * 49
  ∧ calculate_price "Practice Plus" seats = seats * 89
  ∧ calculate_price "Community Access" seats = seats * 49
  ∧ calculate_price "Enterprise Care (Public Health)" seats = seats * 199
  ∧ calculate_price "Enterprise Access (Insurance & EAS)" seats = seats * 199
  ∧ (package ∉ known_tiers → calculate_price package seats = seats * 49)
  ∧ calculate_price "Enterprise Access (Insurance & EAS)" 20 = 3980
  ∧ calculate_price "Fresh Start" 4 = 196
  ∧ calculate_price "Practice Plus" 8 = 712.
Proof.
  unfold calculate_price.
  repeat match goal with
         | |- _ ∧ _ => split
         end;
    try (intros H; destruct (unknown_tier_lookup _ H) as [-> _]);
    reflexivity.
Qed.

Lemma calculate_price_table_witness :
  calculate_price "Starter" 3 = 3 * 49.
Proof.
  apply (calculate_price_table "Starter" 3).
  unfold known_tiers. DecisionRules.mem_solve.
Defined.

(** C5. [get_features] returns, for each of the five tier names, the list
    written in the table, in that order, and the empty list for every other
    string. *)
Theorem get_features_table (package : string) :
  get_features "Fresh Start" =
    ["Basic self-guided tools";
     "AI self-assessment";
     "1 group session/month";
     "1 report template"]
  ∧ get_features "Practice Plus" =
      ["Full AI suite";
       "Group modules";
       "2 sessions/month";
       "Custom reports";
       "Provider dashboard"]
  ∧ get_features "Community Access" =
      ["Multilingual AI tools";
       "Scalable group support";
       "Onboarding support";
       "Usage dashboard";
       "Volume discounts for 500+ users"]
  ∧ get_features "Enterprise Care (Public Health)" =
      ["Full AI triage";
       "Post-session care";
       "Real-time analytics";
       "API access";
       "Client monitoring & support";
       "Unlimited video, audio, and text-based monitoring tools"]
  ∧ get_features "Enterprise Access (Insurance & EAS)" =
      ["API integration";
       "Branded self-assessments";
       "Usage analytics";
       "Employer group modules";
       "Outcome dashboards";
       "Unlimited monitoring tools"]
  ∧ (package ∉ known_tiers → get_features package = []).
Proof.
  unfold get_features.
  repeat match goal with
         | |- _ ∧ _ => split
         end;
    try (intros H; destruct (unknown_tier_lookup _ H) as [_ ->]);
    reflexivity.
Qed.

Lemma get_features_table_witness :
  get_features "" = [] ∧ get_features "fresh start" = [].
Proof.
  split.
  - apply (get_features_table ""). unfold known_tiers. DecisionRules.mem_solve.
  - apply (get_features_table "fresh start"). unfold known_tiers.
    DecisionRules.mem_solve.
Defined.

End Tables.

(** * Properties of the link *)

Module Link.

Import PyStr Url Engine.

(** ** Strings *)

Lemma app_cons (c : ascii) (s t : string) : String c s +:+ t = String c (s +:+ t).
Proof. reflexivity. Qed.

Lemma app_nil_l (t : string) : "" +:+ t = t.
Proof. reflexivity. Qed.

Lemma str_all_app (p : ascii → bool) (s t : string) :
  str_all p (s +:+ t) = str_all p s && str_all p t.
Proof.
  induction s as [| c s IH]; [reflexivity |].
  rewrite app_cons. simpl. rewrite IH. by rewrite andb_assoc.
Qed.

Lemma free_of_app (sep : ascii) (s t : string) :
  free_of sep (s +:+ t) = free_of sep s && free_of sep t.
Proof. apply str_all_app. Qed.

Lemma free_of_cons (sep c : ascii) (s : string) :
  free_of sep (String c s) = true → Ascii.eqb c sep = false ∧ free_of sep s = true.
Proof.
  unfold free_of. simpl. intros [H1 H2]%andb_prop.
  split; [by apply negb_true_iff | done].
Qed.

(** ** Splitting what was joined *)

Lemma split_on_free (sep : ascii) (s : string) :
  free_of sep s = true → split_on sep s = [s].
Proof.
  induction s as [| c s IH]; [reflexivity |].
  intros [Hc Hs]%free_of_cons. simpl. by rewrite Hc, IH.
Qed.

Lemma split_on_app (sep : ascii) (a b : string) :
  free_of sep a = true →
  split_on sep (a +:+ String sep b) = a :: split_on sep b.
Proof.
  induction a as [| c a IH].
  - intros _. rewrite app_nil_l. simpl. by rewrite Ascii.eqb_refl.
  - intros [Hc Ha]%free_of_cons. rewrite app_cons. simpl. by rewrite Hc, IH.
Qed.

Lemma split_on_join (sep : ascii) (items : list string) :
  items ≠ [] →
  Forall (λ x, free_of sep x = true) items →
  split_on sep (join (String sep "") items) = items.
Proof.
  induction items as [| x [| y rest] IH]; [done | |]; intros _ Hall.
  - simpl. apply split_on_free. by inversion Hall.
  - change (join (String sep "") (x :: y :: rest))
      with (x +:+ String sep (join (String sep "") (y :: rest))).
    inversion Hall as [| ? ? Hx Hrest]; subst.
    rewrite split_on_app by done. f_equal. by apply IH.
Qed.

Lemma partition_app (sep : ascii) (a b : string) :
  free_of sep a = true →
  partition sep (a +:+ String sep b) = (a, b).
Proof.
  induction a as [| c a IH].
  - intros _. rewrite app_nil_l. simpl. by rewrite Ascii.eqb_refl.
  - intros [Hc Ha]%free_of_cons. rewrite app_cons. simpl. by rewrite Hc, IH.
Qed.

(** ** Quoting *)

Lemma quote_cons (c : ascii) (s : string) :
  quote (String c s) = quote_byte ["/"%char] c +:+ quote s.
Proof. reflexivity. Qed.

(** One quoted byte decodes to itself, whatever follows. *)
Lemma unquote_quote_byte (c : ascii) (rest : string) :
  unquote (quote_byte ["/"%char] c +:+ rest) = String c (unquote rest).
Proof.
  destruct c as [[] [] [] [] [] [] [] []]; reflexivity.
Qed.

Lemma unquote_quote (s : string) : unquote (quote s) = s.
Proof.
  induction s as [| c s IH]; [reflexivity |].
  by rewrite quote_cons, unquote_quote_byte, IH.
Qed.

(** A quoted byte holds none of the delimiters of a query string. *)
Lemma quote_byte_free (sep c : ascii) (rest : string) :
  sep ∈ ["&"; "="; "?"]%char →
  free_of sep (quote_byte ["/"%char] c +:+ rest) = free_of sep rest.
Proof.
  rewrite !elem_of_cons, elem_of_nil. intros [-> | [-> | [-> | []]]];
    destruct c as [[] [] [] [] [] [] [] []]; reflexivity.
Qed.

Lemma quote_free (sep : ascii) (s : string) :
  sep ∈ ["&"; "="; "?"]%char → free_of sep (quote s) = true.
Proof.
  intros Hsep. induction s as [| c s IH]; [reflexivity |].
  by rewrite quote_cons, quote_byte_free.
Qed.

(** ** Decimal numerals *)

Lemma int_of_str_str_int (n : Z) : int_of_str (str_int n) = Some n.
Proof.
  unfold int_of_str, str_int. rewrite NilZero.isi.
  - simpl. by rewrite DecimalZ.of_to.
  - destruct n as [| p | p]; simpl; try discriminate.
    intros [= H]. by apply Unsigned.to_uint_nonnil in H.
  - destruct n as [| p | p]; simpl; try discriminate.
    intros [= H]. by apply Unsigned.to_uint_nonnil in H.
Qed.

(** ** Reading the link back *)

Lemma query_of_link (q : string) : query_of (base_url +:+ "/?" +:+ q) = q.
Proof. reflexivity. Qed.

(** The items of a query built from non-empty [params] whose keys hold no
    delimiter are the keys with their quoted values. *)
Lemma query_items_link (params : list (string * pyval)) :
  params ≠ [] →
  Forall (λ kv, free_of "&" kv.1 = true ∧ free_of "=" kv.1 = true) params →
  query_items
    (base_url +:+ "/?" +:+
     join "&" ((λ kv, kv.1 +:+ "=" +:+ quote (str kv.2)) <$> params))
  = (λ kv, (kv.1, quote (str kv.2))) <$> params.
Proof.
  intros Hne Hkeys. unfold query_items. rewrite query_of_link.
  rewrite split_on_join.
  - rewrite <- list_fmap_compose. apply Forall_fmap_ext_1.
    eapply Forall_impl; [exact Hkeys |]. intros [k v] [_ Hk]. simpl in *.
    by apply partition_app.
  - by destruct params.
  - apply Forall_fmap. eapply Forall_impl; [exact Hkeys |].
    intros [k v] [Hk _]. simpl in *.
    rewrite free_of_app, Hk. simpl.
    change ("=" +:+ quote (str v)) with (String "=" (quote (str v))).
    apply andb_true_intro. split; [reflexivity |].
    apply quote_free. rewrite !elem_of_cons. auto.
Qed.

(** C6. Percent-decoding the [tier] and [seats] parameters of the link built
    by [generate_streamlit_url] gives back the tier string, byte for byte, and
    the decimal numeral of the seat count, which reads back as that count;
    this holds for every tier string, spaces, ampersands and parentheses
    included, and for every seat count. *)
Theorem link_round_trip (package : string) (seats : Z) :
  let url := generate_streamlit_url package seats in
  query_param "tier" url = Some package
  ∧ query_param "seats" url = Some (str_int seats)
  ∧ query_param "seats" url ≫= int_of_str = Some seats
  ∧ query_items url =
      [("tier", quote package); ("seats", quote (str_int seats));
       ("utm_source", "chatbot")].
Proof.
  cbv zeta. unfold query_param, generate_streamlit_url.
  rewrite query_items_link.
  - simpl. rewrite !unquote_quote. simpl.
    rewrite int_of_str_str_int. done.
  - done.
  - repeat (apply Forall_cons; split; [by split |]). apply Forall_nil_2.
Qed.

Example link_enterprise_access :
  generate_streamlit_url "Enterprise Access (Insurance & EAS)" 20 =
    "https://cogni-recommendation-chuiv5x8slzxktq3mzbb5p.streamlit.app/?tier=Enterprise%20Access%20%28Insurance%20%26%20EAS%29&seats=20&utm_source=chatbot".
Proof. reflexivity. Qed.

End Link.

(** * Properties of the endpoint *)

Module Validation.

Import PyStr Vocabulary Schema Engine Endpoint.

Lemma truthy_spec (s : string) : truthy s = true ↔ s ≠ "".
Proof. destruct s; simpl; split; congruence. Qed.

Lemma not_truthy_spec (s : string) : truthy s = false ↔ s = "".
Proof. destruct s; simpl; split; congruence. Qed.

Lemma rejects_true (data : RecommendationRequest) :
  rejects data = true ↔
  data.(org_type) = "" ∨ data.(team_size) = "" ∨ data.(client_volume) = "".
Proof.
  unfold rejects. rewrite !orb_true_iff, !negb_true_iff, !not_truthy_spec. tauto.
Qed.

Lemma rejects_false (data : RecommendationRequest) :
  rejects data = false ↔
  data.(org_type) ≠ "" ∧ data.(team_size) ≠ "" ∧ data.(client_volume) ≠ "".
Proof.
  unfold rejects. rewrite !orb_false_iff, !negb_false_iff, !truthy_spec. tauto.
Qed.

(** A missing required field never reaches the handler. *)
Lemma validate_missing (b : JsonBody) :
  body_org_type b = None ∨ body_team_size b = None ∨ body_client_volume b = None →
  validate b = None.
Proof.
  destruct b as [o t r c s p]. unfold validate. simpl.
  intros [-> | [-> | ->]]; [reflexivity | |].
  - by destruct (required o).
  - destruct (required o); [| done]. destruct (required t); [| done].
    by destruct (defaulted [] r).
Qed.

(** White space is not an organization category. *)
Lemma whitespace_unrecognized (s : string) :
  whitespace_only s → s ∉ recognized_org_types.
Proof.
  intros [Hne Hall]. unfold recognized_org_types.
  rewrite !not_elem_of_cons. repeat split; try apply not_elem_of_nil;
    intros ->; discriminate Hall.
Qed.

Section Handler.

Variable exn_str : exn → string.

(** C3. A request that lacks [org_type], [team_size] or [client_volume] is
    answered 422 by validation and the handler does not run.  A request that
    carries one of them as the empty string reaches the handler, whose guard
    raises the 422 exception inside the [try]; the [except Exception] clause
    catches it, logs it and raises a 500 in its place.  In both cases no
    recommendation is produced. *)
Theorem missing_or_empty_answer (b : JsonBody) (log : list string) :
  (body_org_type b = None ∨ body_team_size b = None ∨ body_client_volume b = None →
     post_getRecommendation exn_str b log = (log, ValidationError))
  ∧ (∀ data : RecommendationRequest,
       validate b = Some data →
       data.(org_type) = "" ∨ data.(team_size) = "" ∨ data.(client_volume) = "" →
       let rejected := HTTPException 422 "Missing required fields" in
       get_recommendation exn_str data log =
         ((log ++ ["Recommendation error: " +:+ exn_str rejected])%list,
          inl (HTTPException 500 (exn_str rejected)))
       ∧ post_getRecommendation exn_str b log =
           ((log ++ ["Recommendation error: " +:+ exn_str rejected])%list,
            Failure (HTTPException 500 (exn_str rejected)))
       ∧ status (post_getRecommendation exn_str b log).2 = 500).
Proof.
  split.
  - intros H. unfold post_getRecommendation. by rewrite validate_missing.
  - intros data Hv He. cbv zeta.
    assert (get_recommendation exn_str data log =
      ((log ++ ["Recommendation error: " +:+
                exn_str (HTTPException 422 "Missing required fields")])%list,
       inl (HTTPException 500
              (exn_str (HTTPException 422 "Missing required fields"))))) as Hg.
    { apply rejects_true in He. unfold get_recommendation, try_except.
      fold (rejects data). rewrite He. reflexivity. }
    unfold post_getRecommendation. rewrite Hv, Hg. done.
Qed.

(** C10. The guard tests truthiness only: when the three required fields
    are non-empty strings the handler returns the full recommendation built
    from [determine_recommendation], [calculate_price], [get_features],
    [generate_streamlit_url] and [generate_sales_message], logs nothing, and
    the request is answered 200.  A white-space-only [org_type] is no
    recognized category, so its pair comes from the fallback rules. *)
Theorem truthy_fields_accepted (data : RecommendationRequest) (log : list string) :
  data.(org_type) ≠ "" → data.(team_size) ≠ "" → data.(client_volume) ≠ "" →
  let r :=
    determine_recommendation data.(org_type) data.(team_size) data.(client_volume)
      data.(specializations) data.(services) in
  let price := calculate_price r.1 r.2 in
  get_recommendation exn_str data log =
    (log,
     inr {| recommended_package := r.1;
            recommended_seats := r.2;
            estimated_pricing := "$" +:+ str_int price;
            key_features := get_features r.1;
            next_steps := generate_streamlit_url r.1 r.2;
            sales_message := generate_sales_message r.1 r.2 price data |})
  ∧ (∀ b : JsonBody, validate b = Some data →
       status (post_getRecommendation exn_str b log).2 = 200)
  ∧ (whitespace_only data.(org_type) →
       (data.(org_type) ∉ recognized_org_types)
       ∧ r =
         (if bool_decide ("Trauma-informed care" ∈ data.(specializations)) then
            ("Practice Plus", 8)
          else if bool_decide ("Group therapy or workshops" ∈ data.(services))
                  && bool_decide (data.(team_size) ∈ ["16–50 providers"; "51+ providers"])
          then ("Community Access", 20)
          else ("Community Access", 10))).
Proof.
  intros Ho Ht Hc. cbv zeta.
  assert (rejects data = false) as Hr by (by apply rejects_false).
  assert (get_recommendation exn_str data log = (log, inr
    (let r := determine_recommendation data.(org_type) data.(team_size)
                data.(client_volume) data.(specializations) data.(services) in
     {| recommended_package := r.1;
        recommended_seats := r.2;
        estimated_pricing := "$" +:+ str_int (calculate_price r.1 r.2);
        key_features := get_features r.1;
        next_steps := generate_streamlit_url r.1 r.2;
        sales_message :=
          generate_sales_message r.1 r.2 (calculate_price r.1 r.2) data |})))
    as Hg.
  { unfold get_recommendation, try_except. fold (rejects data). rewrite Hr.
    destruct (determine_recommendation _ _ _ _ _) as [package seats].
    reflexivity. }
  split; [exact Hg |]. split.
  - intros b Hv. unfold post_getRecommendation. rewrite Hv, Hg. reflexivity.
  - intros Hw. pose proof (whitespace_unrecognized _ Hw) as Hu.
    split; [exact Hu |].
    unfold determine_recommendation.
    by destruct (DecisionRules.unrecognized_tests _ Hu) as (-> & -> & -> & ->).
Qed.

End Handler.

Lemma missing_or_empty_answer_witness :
  post_getRecommendation starlette_str empty_org_body [] =
    (["Recommendation error: 422: Missing required fields"],
     Failure (HTTPException 500 "422: Missing required fields"))
  ∧ status (post_getRecommendation starlette_str empty_org_body []).2 = 500.
Proof.
  pose proof (missing_or_empty_answer starlette_str empty_org_body []) as [_ H].
  specialize (H {| org_type := "";
                   team_size := "2–5 providers";
                   team_roles := [];
                   client_volume := "Low";
                   services := [];
                   specializations := [] |} eq_refl (or_introl eq_refl)).
  destruct H as (_ & H1 & H2). split; [exact H1 | exact H2].
Defined.

Lemma truthy_fields_accepted_witness :
  (get_recommendation starlette_str blank_request []).2 =
    inr {| recommended_package := "Community Access";
           recommended_seats := 20;
           estimated_pricing := "$980";
           key_features := get_features "Community Access";
           next_steps := generate_streamlit_url "Community Access" 20;
           sales_message :=
             generate_sales_message "Community Access" 20 980 blank_request |}.
Proof.
  assert (org_type blank_request ≠ "") as Ho by discriminate.
  assert (team_size blank_request ≠ "") as Ht by discriminate.
  assert (client_volume blank_request ≠ "") as Hc by discriminate.
  pose proof (truthy_fields_accepted starlette_str blank_request [] Ho Ht Hc)
    as [H _].
  rewrite H. reflexivity.
Defined.

(** ** Worked examples *)

Example end_to_end_insurance :
  ∃ r : Recommendation,
    post_getRecommendation starlette_str
      {| body_org_type := Some (Accepted "Insurance Provider / EAS");
         body_team_size := Some (Accepted "51+ providers");
         body_team_roles := None;
         body_client_volume := Some (Accepted "High");
         body_services := None;
         body_specializations := None |} []
    = ([], Success r)
    ∧ recommended_package r = "Enterprise Access (Insurance & EAS)"
    ∧ recommended_seats r = 20
    ∧ estimated_pricing r = "$3980".
Proof. eexists. split; [reflexivity |]. repeat split. Qed.

Example end_to_end_private_practice :
  ∃ r : Recommendation,
    post_getRecommendation starlette_str
      {| body_org_type := Some (Accepted "Mental Health Practitioner – Private Practice");
         body_team_size := Some (Accepted "2–5 providers");
         body_team_roles := None;
         body_client_volume := Some (Accepted "Low");
         body_services := None;
         body_specializations := None |} []
    = ([], Success r)
    ∧ recommended_package r = "Fresh Start"
    ∧ recommended_seats r = 4
    ∧ estimated_pricing r = "$196".
Proof. eexists. split; [reflexivity |]. repeat split. Qed.

Example end_to_end_missing_team_size :
  post_getRecommendation starlette_str
    {| body_org_type := Some (Accepted "Insurance Provider / EAS");
       body_team_size := None;
       body_team_roles := None;
       body_client_volume := Some (Accepted "High");
       body_services := None;
       body_specializations := None |} []
  = ([], ValidationError).
Proof. reflexivity. Qed.

End Validation.

(** * Further properties of the link *)

Module LinkFacts.

Import PyStr Url Engine Text.

Lemma app_assoc (a b c : string) : (a +:+ b) +:+ c = a +:+ b +:+ c.
Proof.
  induction a as [| x a IH]; [reflexivity |].
  rewrite !Link.app_cons. by rewrite IH.
Qed.

(** ** The alphabet of a link *)

Lemma quote_byte_url (c : ascii) (rest : string) :
  str_all url_byte (quote_byte ["/"%char] c +:+ rest) = str_all url_byte rest.
Proof.
  destruct c as [[] [] [] [] [] [] [] []]; reflexivity.
Qed.

Lemma quote_url (s : string) : str_all url_byte (quote s) = true.
Proof.
  induction s as [| c s IH]; [reflexivity |].
  by rewrite Link.quote_cons, quote_byte_url.
Qed.

(** ** Text that needs no quoting *)

Lemma quote_byte_kept (c : ascii) :
  kept_byte c = true → quote_byte ["/"%char] c = String c "".
Proof.
  unfold kept_byte, quote_byte. by intros ->.
Qed.

Lemma quote_kept (s : string) : str_all kept_byte s = true → quote s = s.
Proof.
  induction s as [| c s IH]; [reflexivity |].
  simpl. intros [Hc Hs]%andb_prop.
  rewrite Link.quote_cons, quote_byte_kept, IH by done. reflexivity.
Qed.

Lemma digits_kept (d : Decimal.uint) :
  str_all kept_byte (NilEmpty.string_of_uint d) = true.
Proof.
  induction d; simpl; try done; by rewrite IHd.
Qed.

Lemma str_int_kept (n : Z) : str_all kept_byte (str_int n) = true.
Proof.
  unfold str_int.
  destruct (Z.to_int n) as [d | d]; simpl;
    destruct d; try reflexivity; apply digits_kept.
Qed.

(** The items read back from a link. *)
Lemma link_items (package : string) (seats : Z) :
  query_items (generate_streamlit_url package seats) =
    [("tier", quote package); ("seats", str_int seats); ("utm_source", "chatbot")].
Proof.
  unfold generate_streamlit_url. rewrite Link.query_items_link.
  - simpl. by rewrite (quote_kept (str_int seats)) by apply str_int_kept.
  - done.
  - repeat (apply Forall_cons; split; [by split |]). apply Forall_nil_2.
Qed.

(** X1. The link is the base address followed by [/?tier=], the quoted tier,
    [&seats=], the plain decimal numeral of the seat count (quoting leaves a
    numeral as it is, sign included) and [&utm_source=chatbot]; every byte
    of it is an unreserved character or one of [/ : ? = & %], whatever bytes
    the tier string holds. *)
Theorem link_shape (package : string) (seats : Z) :
  generate_streamlit_url package seats =
    base_url +:+ "/?tier=" +:+ quote package +:+ "&seats=" +:+ str_int seats
    +:+ "&utm_source=chatbot"
  ∧ quote (str_int seats) = str_int seats
  ∧ str_all url_byte (generate_streamlit_url package seats) = true.
Proof.
  assert (quote (str_int seats) = str_int seats) as Hq
    by (apply quote_kept, str_int_kept).
  assert (generate_streamlit_url package seats =
    base_url +:+ "/?tier=" +:+ quote package +:+ "&seats=" +:+ str_int seats
    +:+ "&utm_source=chatbot") as Hs.
  { unfold generate_streamlit_url. simpl. rewrite Hq.
    change (quote "chatbot") with "chatbot".
    rewrite !app_assoc. reflexivity. }
  split; [exact Hs |]. split; [exact Hq |].
  rewrite Hs, !Link.str_all_app, quote_url.
  rewrite <- (quote_kept (str_int seats)) by apply str_int_kept.
  by rewrite quote_url.
Qed.

(** X2. Two links are equal only if they were built from the same tier
    string and the same seat count. *)
Theorem link_injective (package package' : string) (seats seats' : Z) :
  generate_streamlit_url package seats = generate_streamlit_url package' seats' →
  package = package' ∧ seats = seats'.
Proof.
  intros H. apply (f_equal query_items) in H. rewrite !link_items in H.
  injection H as Hp Hs. split.
  - rewrite <- (Link.unquote_quote package), Hp. apply Link.unquote_quote.
  - apply (f_equal int_of_str) in Hs.
    rewrite !Link.int_of_str_str_int in Hs. by injection Hs.
Qed.

Lemma link_injective_witness :
  "Fresh Start" = "Fresh Start" ∧ 4 = 4.
Proof.
  apply (link_injective "Fresh Start" "Fresh Start" 4 4). reflexivity.
Defined.

End LinkFacts.

(** * Further properties of the rules and the tables *)

Module EngineFacts.

Import PyStr Vocabulary Engine Text.

(** X3. The decision reads [specializations] only through the presence of
    "Trauma-informed care" and [services] only through the presence of "Group
    therapy or workshops": two calls whose lists agree on these two
    memberships return the same pair, so order, repetition and any other
    entry of the lists are irrelevant. *)
Theorem lists_read_by_membership
    (org_type team_size client_volume client_volume' : string)
    (specializations specializations' services services' : list string) :
  ("Trauma-informed care" ∈ specializations ↔
   "Trauma-informed care" ∈ specializations') →
  ("Group therapy or workshops" ∈ services ↔
   "Group therapy or workshops" ∈ services') →
  determine_recommendation org_type team_size client_volume specializations services
  = determine_recommendation org_type team_size client_volume' specializations' services'.
Proof.
  intros Hs Hv. unfold determine_recommendation.
  by rewrite (bool_decide_ext _ _ Hs), (bool_decide_ext _ _ Hv).
Qed.

Lemma lists_read_by_membership_witness :
  determine_recommendation "Clinic" "51+ providers" "Low"
    ["Anxiety"; "Trauma-informed care"] ["Group therapy or workshops"]
  = determine_recommendation "Clinic" "51+ providers" "High"
      ["Trauma-informed care"; "Trauma-informed care"]
      ["Telehealth"; "Group therapy or workshops"].
Proof.
  apply lists_read_by_membership.
  - rewrite !elem_of_cons. tauto.
  - rewrite !elem_of_cons. tauto.
Defined.

(** The rate used by [calculate_price] is one of three numbers. *)
Lemma rate_values (package : string) :
  default 49 (pricing !! package) ∈ [49; 89; 199].
Proof.
  destruct (decide (package ∈ known_tiers)) as [Hin | Hout].
  - unfold known_tiers in Hin. rewrite !elem_of_cons, elem_of_nil in Hin.
    destruct Hin as [-> | [-> | [-> | [-> | [-> | []]]]]];
      apply list_elem_of_In; simpl; tauto.
  - destruct (Tables.unknown_tier_lookup _ Hout) as [-> _].
    apply list_elem_of_In; simpl; tauto.
Qed.

(** X4. For every package string, known or not, the price of a non-negative
    number of seats lies between 49 and 199 per seat; the price is additive in
    the seat count, and no seats cost nothing. *)
Theorem calculate_price_bounds (package : string) (seats seats' : Z) :
  (0 ≤ seats → 49 * seats ≤ calculate_price package seats ≤ 199 * seats)%Z
  ∧ calculate_price package (seats + seats') =
      calculate_price package seats + calculate_price package seats'
  ∧ calculate_price package 0 = 0.
Proof.
  unfold calculate_price.
  pose proof (rate_values package) as Hr.
  rewrite !elem_of_cons, elem_of_nil in Hr.
  split; [| split]; [intros Hs; nia | lia | lia].
Qed.

Lemma calculate_price_bounds_witness :
  (49 * 7 ≤ calculate_price "No such tier" 7 ≤ 199 * 7)%Z.
Proof.
  apply (calculate_price_bounds "No such tier" 7 0). lia.
Defined.

(** X5. Whatever the answers, the price of the recommended package at the
    recommended seat count is one of seven amounts, between 196 and 3980. *)
Theorem recommended_price_values
    (org_type team_size client_volume : string)
    (specializations services : list string) :
  let r :=
    determine_recommendation org_type team_size client_volume specializations services in
  calculate_price r.1 r.2 ∈ quoted_prices
  ∧ (196 ≤ calculate_price r.1 r.2 ≤ 3980)%Z.
Proof.
  cbv zeta.
  pose proof (DecisionRules.determine_recommendation_returns org_type team_size
                client_volume specializations services) as Hin.
  assert (Forall (λ r : string * Z, calculate_price r.1 r.2 ∈ quoted_prices)
            return_sites) as Hall.
  { unfold return_sites, quoted_prices.
    repeat (apply Forall_cons; split;
      [apply list_elem_of_In; vm_compute; tauto |]).
    apply Forall_nil_2. }
  pose proof (proj1 (Forall_forall _ _) Hall _ Hin) as Hp.
  split; [exact Hp |].
  revert Hp. unfold quoted_prices. rewrite !elem_of_cons, elem_of_nil. lia.
Qed.

(** X6. The two tables agree: a string has a non-empty feature list exactly
    when it has a rate of its own in the pricing table; no feature list
    repeats an entry, and none has more than six. *)
Theorem tables_agree (package : string) :
  (get_features package ≠ [] ↔ is_Some (pricing !! package))
  ∧ NoDup (get_features package)
  ∧ (length (get_features package) ≤ 6)%nat.
Proof.
  destruct (decide (package ∈ known_tiers)) as [Hin | Hout].
  - pose proof (proj1 (DecisionRules.pricing_keys _) Hin) as Hp.
    unfold known_tiers in Hin. rewrite !elem_of_cons, elem_of_nil in Hin.
    destruct Hin as [-> | [-> | [-> | [-> | [-> | []]]]]];
      (split; [split; [intros _; exact Hp | intros _; vm_compute; discriminate] |
       split; [apply (bool_decide_unpack _); vm_compute; exact I
              | vm_compute; lia]]).
  - pose proof Hout as Hk. rewrite DecisionRules.pricing_keys in Hk.
    unfold get_features.
    destruct (Tables.unknown_tier_lookup _ Hout) as [_ ->]. simpl.
    split; [split; [done | intros H; by destruct Hk] |].
    split; [apply NoDup_nil_2 | lia].
Qed.

End EngineFacts.

(** * Properties of the sales message *)

Module MessageFacts.

Import PyStr Vocabulary Schema Engine Text.

Lemma app_nil_r (s : string) : s +:+ "" = s.
Proof.
  induction s as [| c s IH]; [reflexivity |].
  by rewrite Link.app_cons, IH.
Qed.

Lemma contains_refl (x : string) : contains x x.
Proof. exists "", "". by rewrite app_nil_r. Qed.

Lemma starts_here (x t : string) : starts (x +:+ t) x.
Proof. by exists t. Qed.

Lemma starts_app (a t x : string) : starts t x → starts (a +:+ t) (a +:+ x).
Proof. intros [post ->]. exists post. by rewrite LinkFacts.app_assoc. Qed.

Lemma contains_starts (t x : string) : starts t x → contains t x.
Proof. intros [post ->]. by exists "", post. Qed.

Lemma contains_skip (s t x : string) : contains t x → contains (s +:+ t) x.
Proof.
  intros (pre & post & ->). exists (s +:+ pre), post.
  by rewrite LinkFacts.app_assoc.
Qed.

Lemma contains_trans (a b c : string) : contains a b → contains b c → contains a c.
Proof.
  intros (p & q & ->) (p' & q' & ->). exists (p +:+ p'), (q' +:+ q).
  by rewrite !LinkFacts.app_assoc.
Qed.

Ltac starts_tac := first [apply starts_here | apply starts_app; starts_tac].

Ltac find_tac :=
  first [apply contains_starts; starts_tac | apply contains_skip; find_tac].

Lemma join_cons2 (sep x y : string) (rest : list string) :
  join sep (x :: y :: rest) = x +:+ sep +:+ join sep (y :: rest).
Proof. reflexivity. Qed.

(** Each item of a joined list of bullets is part of the text. *)
Lemma bullets_contain (fs : list string) (f : string) :
  f ∈ fs → contains (join nl ((λ f, "- " +:+ f) <$> fs)) ("- " +:+ f).
Proof.
  induction fs as [| g [| h rest] IH].
  - intros H. by apply elem_of_nil in H.
  - intros ->%list_elem_of_singleton. simpl. apply contains_refl.
  - intros Hin. rewrite !fmap_cons, join_cons2.
    apply elem_of_cons in Hin as [-> | Hin].
    + apply contains_starts, starts_here.
    + apply contains_skip, contains_skip. by apply IH.
Qed.

Lemma message_features_block
    (package : string) (seats price : Z) (data : RecommendationRequest) :
  contains (generate_sales_message package seats price data) (features_block package).
Proof.
  unfold generate_sales_message. fold (features_block package). cbv zeta.
  find_tac.
Qed.

Lemma message_link
    (package : string) (seats price : Z) (data : RecommendationRequest) :
  contains (generate_sales_message package seats price data)
    ("(" +:+ generate_streamlit_url package seats +:+ ")").
Proof.
  unfold generate_sales_message. cbv zeta.
  change "    [📊 Click here for your detailed report]("
    with ("    [📊 Click here for your detailed report]" +:+ "(").
  rewrite (LinkFacts.app_assoc "    [📊 Click here for your detailed report]" "(").
  find_tac.
Qed.

(** X7. The sales message carries every answer and every result: the
    sentence naming [org_type], [team_size] and [client_volume], the package
    (twice), the seat count, the price after a dollar sign, one bullet for
    each feature of the package, and the link in parentheses. *)
Theorem message_carries_all
    (package : string) (seats price : Z) (data : RecommendationRequest) :
  let text := generate_sales_message package seats price data in
  contains text ("    **Recommended Package:** " +:+ package +:+ nl)
  ∧ contains text
      ("Based on your " +:+ data.(org_type) +:+ " organization with "
       +:+ data.(team_size) +:+ " team and " +:+ data.(client_volume)
       +:+ " client volume, we recommend:")
  ∧ contains text ("    **Package:** " +:+ package +:+ "  ")
  ∧ contains text ("    **Seats:** " +:+ str_int seats +:+ "  ")
  ∧ contains text ("    **Price:** $" +:+ str_int price +:+ "  ")
  ∧ (∀ f : string, f ∈ get_features package → contains text ("- " +:+ f))
  ∧ contains text ("(" +:+ generate_streamlit_url package seats +:+ ")").
Proof.
  cbv zeta. repeat match goal with |- _ ∧ _ => split end.
  - unfold generate_sales_message. cbv zeta. find_tac.
  - unfold generate_sales_message. cbv zeta.
    change "    Thank you for your details! Based on your "
      with ("    Thank you for your details! " +:+ "Based on your ").
    rewrite (LinkFacts.app_assoc "    Thank you for your details! " "Based on your ").
    find_tac.
  - unfold generate_sales_message. cbv zeta. find_tac.
  - unfold generate_sales_message. cbv zeta. find_tac.
  - unfold generate_sales_message. cbv zeta. find_tac.
  - intros f Hf. eapply contains_trans; [apply message_features_block |].
    by apply bullets_contain.
  - apply message_link.
Qed.

Lemma message_carries_all_witness :
  contains (generate_sales_message "Fresh Start" 4 196 Endpoint.blank_request)
    "- AI self-assessment".
Proof.
  apply (message_carries_all "Fresh Start" 4 196 Endpoint.blank_request).
  apply list_elem_of_In. vm_compute. tauto.
Defined.

(** X8. In the message the features stand one per line, in the order of the
    table: splitting the feature block at line breaks gives the bullets of
    [get_features]; for a package without features the block is empty. *)
Theorem features_one_per_line (package : string) :
  (get_features package = [] → features_block package = "")
  ∧ (get_features package ≠ [] →
       split_on "010" (features_block package) =
       (λ f, "- " +:+ f) <$> get_features package).
Proof.
  unfold features_block. split.
  - by intros ->.
  - intros Hne. destruct (decide (package ∈ known_tiers)) as [Hin | Hout].
    + unfold known_tiers in Hin. rewrite !elem_of_cons, elem_of_nil in Hin.
      destruct Hin as [-> | [-> | [-> | [-> | [-> | []]]]]];
        vm_compute; reflexivity.
    + unfold get_features in Hne.
      by destruct (Tables.unknown_tier_lookup _ Hout) as [_ Hf]; rewrite Hf in Hne.
Qed.

Lemma features_one_per_line_witness :
  split_on "010" (features_block "Fresh Start") =
    ["- Basic self-guided tools"; "- AI self-assessment";
     "- 1 group session/month"; "- 1 report template"].
Proof.
  apply (features_one_per_line "Fresh Start"). vm_compute. discriminate.
Defined.

End MessageFacts.

(** * Further properties of the endpoint *)

Module EndpointFacts.

Import PyStr Url Vocabulary Schema Engine Endpoint Text.

Section Handler.

Variable exn_str : exn → string.

(** The two runs of the handler. *)
Lemma handler_rejects (data : RecommendationRequest) (log : list string) :
  rejects data = true →
  get_recommendation exn_str data log =
    ((log ++ ["Recommendation error: " +:+
              exn_str (HTTPException 422 "Missing required fields")])%list,
     inl (HTTPException 500 (exn_str (HTTPException 422 "Missing required fields")))).
Proof.
  intros Hr. unfold get_recommendation, try_except. fold (rejects data).
  by rewrite Hr.
Qed.

Lemma handler_accepts (data : RecommendationRequest) (log : list string) :
  rejects data = false →
  get_recommendation exn_str data log =
    (log,
     inr (let r := determine_recommendation data.(org_type) data.(team_size)
                     data.(client_volume) data.(specializations) data.(services) in
          {| recommended_package := r.1;
             recommended_seats := r.2;
             estimated_pricing := "$" +:+ str_int (calculate_price r.1 r.2);
             key_features := get_features r.1;
             next_steps := generate_streamlit_url r.1 r.2;
             sales_message :=
               generate_sales_message r.1 r.2 (calculate_price r.1 r.2) data |})).
Proof.
  intros Hr. unfold get_recommendation, try_except. fold (rejects data).
  rewrite Hr. by destruct (determine_recommendation _ _ _ _ _).
Qed.

(** Validation fails exactly on an absent required field or an ill-typed
    field. *)
Lemma validate_fails (b : JsonBody) : validate b = None ↔ absent b ∨ ill_typed b.
Proof.
  destruct b as [o t roles c sv sp]. unfold validate, absent, ill_typed. simpl.
  destruct o as [[| o] |]; simpl; [intuition auto | | intuition auto].
  destruct t as [[| t] |]; simpl; [intuition auto | | intuition auto].
  destruct roles as [[| roles] |]; simpl; [intuition auto | |];
    (destruct c as [[| c] |]; simpl; [intuition auto | | intuition auto];
     destruct sv as [[| sv] |]; simpl; [intuition auto | |];
     (destruct sp as [[| sp] |]; simpl; [intuition auto | |];
      intuition discriminate)).
Qed.

(** A validated request carries the required fields of the body. *)
Lemma validate_passes (b : JsonBody) (data : RecommendationRequest) :
  validate b = Some data →
  body_org_type b = Some (Accepted data.(org_type))
  ∧ body_team_size b = Some (Accepted data.(team_size))
  ∧ body_client_volume b = Some (Accepted data.(client_volume)).
Proof.
  destruct b as [o t roles c sv sp]. unfold validate. simpl.
  destruct o as [[| o] |]; simpl; try discriminate.
  destruct t as [[| t] |]; simpl; try discriminate.
  destruct (defaulted [] roles); simpl; try discriminate.
  destruct c as [[| c] |]; simpl; try discriminate.
  destruct (defaulted [] sv); simpl; try discriminate.
  destruct (defaulted [] sp); simpl; try discriminate.
  by intros [= <-].
Qed.

(** X9. For a body that is a JSON object, the status of the answer is 422
    exactly when a required field is absent or some field, required or not,
    has the wrong type; 500 exactly when the body validates and one of the
    three required strings is empty; 200 exactly when the body validates and
    the three required strings are non-empty.  No other status occurs. *)
Theorem status_by_fields (b : JsonBody) (log : list string) :
  let st := status (post_getRecommendation exn_str b log).2 in
  (st = 422 ↔ absent b ∨ ill_typed b)
  ∧ (st = 500 ↔ ¬ (absent b ∨ ill_typed b) ∧ blank b)
  ∧ (st = 200 ↔ ¬ (absent b ∨ ill_typed b) ∧ ¬ blank b)
  ∧ st ∈ [200; 422; 500].
Proof.
  cbv zeta. rewrite !elem_of_cons. rewrite <- validate_fails.
  unfold post_getRecommendation.
  destruct (validate b) as [data |] eqn:Hv; simpl;
    [| intuition (discriminate || congruence)].
  destruct (validate_passes _ _ Hv) as (Ho & Ht & Hc).
  assert (blank b ↔ rejects data = true) as Hb.
  { rewrite Validation.rejects_true. unfold blank. rewrite Ho, Ht, Hc.
    split.
    - intros [[= H] | [[= H] | [= H]]]; auto.
    - intros [H | [H | H]]; rewrite H; auto. }
  rewrite Hb. destruct (rejects data) eqn:Hr.
  - rewrite (handler_rejects data log Hr). simpl.
    intuition (discriminate || congruence).
  - rewrite (handler_accepts data log Hr). simpl.
    intuition (discriminate || congruence).
Qed.

(** X10. The handler only ever appends to the log, at most one record; it
    logs nothing when it returns, and when it raises the exception is an
    [HTTPException] with status 500: the 422 of its own guard never leaves
    it. *)
Theorem handler_log_and_errors (data : RecommendationRequest) (log : list string) :
  let out := get_recommendation exn_str data log in
  ∃ extra : list string,
    out.1 = (log ++ extra)%list
    ∧ (length extra ≤ 1)%nat
    ∧ (extra = [] ↔ ∃ r : Recommendation, out.2 = inr r)
    ∧ (∀ e : exn, out.2 = inl e → status_code_of e = 500).
Proof.
  cbv zeta. destruct (rejects data) eqn:Hr.
  - rewrite (handler_rejects _ _ Hr). eexists. split; [reflexivity |]. simpl.
    split; [lia |]. split.
    + split; [discriminate | intros [r Hr']; discriminate].
    + by intros e [= <-].
  - rewrite (handler_accepts _ _ Hr). exists []. simpl.
    split; [by rewrite app_nil_r |]. split; [lia |]. split.
    + split; eauto.
    + intros e [=].
Qed.

(** X11. [team_roles] reaches no part of the answer, and [client_volume]
    reaches only the text of the sales message: changing [team_roles] leaves
    the outcome of the handler unchanged, and two accepted requests that
    differ in [client_volume] get the same package, seats, price, features and
    link. *)
Theorem unused_answers
    (data : RecommendationRequest) (roles : list string) (volume : string)
    (log : list string) :
  let with_roles :=
    {| org_type := data.(org_type);
       team_size := data.(team_size);
       team_roles := roles;
       client_volume := data.(client_volume);
       services := data.(services);
       specializations := data.(specializations) |} in
  let with_volume :=
    {| org_type := data.(org_type);
       team_size := data.(team_size);
       team_roles := data.(team_roles);
       client_volume := volume;
       services := data.(services);
       specializations := data.(specializations) |} in
  get_recommendation exn_str with_roles log = get_recommendation exn_str data log
  ∧ ∀ r r' : Recommendation,
      (get_recommendation exn_str data log).2 = inr r →
      (get_recommendation exn_str with_volume log).2 = inr r' →
      recommended_package r = recommended_package r'
      ∧ recommended_seats r = recommended_seats r'
      ∧ estimated_pricing r = estimated_pricing r'
      ∧ key_features r = key_features r'
      ∧ next_steps r = next_steps r'.
Proof.
  cbv zeta. split.
  - destruct data as [o t rl c sv sp]. reflexivity.
  - intros r r'.
    destruct (rejects data) eqn:Hr.
    { rewrite (handler_rejects _ _ Hr). discriminate. }
    rewrite (handler_accepts _ _ Hr). intros [= <-].
    match goal with
    | |- context [get_recommendation _ ?d _] => destruct (rejects d) eqn:Hr'
    end.
    { rewrite (handler_rejects _ _ Hr'). discriminate. }
    rewrite (handler_accepts _ _ Hr'). intros [= <-]. simpl. done.
Qed.

(** X12. In every answer the parts agree: the link decodes to the
    recommended package and seat count, the price shown is the dollar sign
    followed by seats times the table rate of the package, the feature list
    is that of the package and is not empty, and the sales message holds the
    link and the price. *)
Theorem answer_is_coherent
    (data : RecommendationRequest) (log log' : list string) (r : Recommendation) :
  get_recommendation exn_str data log = (log', inr r) →
  query_param "tier" (next_steps r) = Some (recommended_package r)
  ∧ query_param "seats" (next_steps r) ≫= int_of_str = Some (recommended_seats r)
  ∧ (∃ rate : Z,
       pricing !! recommended_package r = Some rate
       ∧ estimated_pricing r = "$" +:+ str_int (recommended_seats r * rate))
  ∧ key_features r = get_features (recommended_package r)
  ∧ key_features r ≠ []
  ∧ contains (sales_message r) (next_steps r)
  ∧ contains (sales_message r) (estimated_pricing r).
Proof.
  destruct (rejects data) eqn:Hr.
  { rewrite (handler_rejects _ _ Hr). discriminate. }
  rewrite (handler_accepts _ _ Hr). intros [= _ <-]. cbv zeta.
  pose proof (DecisionRules.determine_recommendation_returns data.(org_type)
                data.(team_size) data.(client_volume) data.(specializations)
                data.(services)) as Hin.
  pose proof (proj1 (Forall_forall _ _) DecisionRules.return_sites_served _ Hin)
    as (_ & (rate & Hrate & Hprice) & (fs & Hfs & Hne) & _).
  destruct (determine_recommendation _ _ _ _ _) as [package seats].
  simpl in *. unfold query_param. rewrite LinkFacts.link_items. simpl.
  assert (unquote (str_int seats) = str_int seats) as Hu.
  { pose proof (LinkFacts.quote_kept _ (LinkFacts.str_int_kept seats)) as Hq.
    rewrite <- Hq at 1. apply Link.unquote_quote. }
  rewrite Link.unquote_quote, Hu, Link.int_of_str_str_int.
  split; [done |]. split; [done |]. split.
  { exists rate. split; [done |]. by rewrite Hprice. }
  split; [done |]. split.
  { unfold get_features. by rewrite Hfs. }
  split.
  - eapply MessageFacts.contains_trans; [apply MessageFacts.message_link |].
    exists "(", ")". reflexivity.
  - unfold generate_sales_message. cbv zeta.
    change "    **Price:** $" with ("    **Price:** " +:+ "$").
    rewrite (LinkFacts.app_assoc "    **Price:** " "$").
    MessageFacts.find_tac.
Qed.

End Handler.

Lemma status_by_fields_witness :
  status (post_getRecommendation starlette_str
            {| body_org_type := Some (Accepted "Insurance Provider / EAS");
               body_team_size := Some (Accepted "51+ providers");
               body_team_roles := None;
               body_client_volume := Some (Accepted "High");
               body_services := Some Rejected;
               body_specializations := None |} []).2 = 422
  ∧ status (post_getRecommendation starlette_str empty_org_body []).2 = 500.
Proof.
  split.
  - apply (status_by_fields starlette_str
             {| body_org_type := Some (Accepted "Insurance Provider / EAS");
                body_team_size := Some (Accepted "51+ providers");
                body_team_roles := None;
                body_client_volume := Some (Accepted "High");
                body_services := Some Rejected;
                body_specializations := None |} []).
    right. unfold ill_typed. simpl. auto 10.
  - apply (status_by_fields starlette_str empty_org_body []). split.
    + unfold absent, ill_typed. simpl. intuition discriminate.
    + left. reflexivity.
Defined.

Lemma handler_log_and_errors_witness :
  ∃ extra : list string,
    (get_recommendation starlette_str blank_request ["earlier record"]).1
    = (["earlier record"] ++ extra)%list
    ∧ extra = [].
Proof.
  destruct (handler_log_and_errors starlette_str blank_request ["earlier record"])
    as (extra & H1 & _ & H2 & _).
  exists extra. split; [exact H1 |]. apply H2. eexists. reflexivity.
Defined.

Lemma unused_answers_witness :
  ∃ r r' : Recommendation,
    (get_recommendation starlette_str blank_request []).2 = inr r
    ∧ (get_recommendation starlette_str
         {| org_type := " ";
            team_size := "51+ providers";
            team_roles := [];
            client_volume := "Low";
            services := ["Group therapy or workshops"];
            specializations := [] |} []).2 = inr r'
    ∧ next_steps r = next_steps r'.
Proof.
  eexists. eexists. split; [reflexivity |]. split; [reflexivity |].
  apply (unused_answers starlette_str blank_request [] "Low" []); reflexivity.
Defined.

Lemma answer_is_coherent_witness :
  query_param "tier"
    (generate_streamlit_url "Community Access" 20) = Some "Community Access".
Proof.
  pose proof (answer_is_coherent starlette_str blank_request [] [] _ eq_refl)
    as [H _].
  exact H.
Defined.

End EndpointFacts.

(** * Properties of the earlier handler *)

Module CheckpointFacts.

Import Checkpoint.

Section Handler.

Context {value : Type}.
Variable truth : value → bool.
Variable predict_package :
  value → value → value → value → value → outcome (string * Z).
Variable PACKAGE_PRICE_TABLE : gmap (string * Z) Z.
Variable SALES_MESSAGES : gmap string string.
Variable format : string → Z → Z → string → string → outcome string.
Variable exc_str : exc → string.

Local Notation "'run'" :=
  (get_recommendation value truth predict_package PACKAGE_PRICE_TABLE
     SALES_MESSAGES format exc_str).

(** X13. The 400 of the guard never reaches the client: when one of
    [org_type], [team_size], [client_volume] is falsy the handler prints the
    400 exception and raises a 500 whose detail is its text, the same
    whatever the predictor, the tables and the formatter are; and whatever the
    request, the handler either returns or raises a 500. *)
Theorem guard_status_is_lost (data : InputData value) (printed : list exc) :
  (truth data.(org_type value) = false ∨ truth data.(team_size value) = false
   ∨ truth data.(client_volume value) = false →
   ∀ predict' table' messages' format',
     get_recommendation value truth predict' table' messages' format' exc_str
       data printed
     = ((printed ++ [HTTPExc 400 "Missing required fields"])%list,
        Raises (HTTPExc 500 (exc_str (HTTPExc 400 "Missing required fields")))))
  ∧ ((∃ a : Answer, run data printed = (printed, Returns a))
     ∨ (∃ e : exc, run data printed =
          ((printed ++ [e])%list, Raises (HTTPExc 500 (exc_str e))))).
Proof.
  split.
  - intros H predict' table' messages' format'.
    unfold get_recommendation, attempt. simpl.
    destruct H as [-> | [-> | ->]]; simpl; rewrite ?andb_false_r; reflexivity.
  - unfold get_recommendation.
    destruct (attempt _ _ _ _ _ _ data) as [a | e]; eauto.
Qed.

(** X14. An answer is returned only for a request whose three required
    fields are truthy, for the pair the predictor returned, and only if the
    package has a sales message; its price is the entry of the price table
    for that pair and, when the table has none, 49 per seat.  A package
    without a sales message ends in a 500 that reports the [KeyError]. *)
Theorem answer_origin (data : InputData value) (printed : list exc) :
  (∀ (a : Answer) (printed' : list exc),
     run data printed = (printed', Returns a) →
     printed' = printed
     ∧ truth data.(org_type value) = true
     ∧ truth data.(team_size value) = true
     ∧ truth data.(client_volume value) = true
     ∧ predict_package data.(org_type value) data.(team_size value)
         data.(client_volume value) data.(specialization value)
         data.(service_model value) = Returns (a.(package), a.(seats))
     ∧ is_Some (SALES_MESSAGES !! a.(package))
     ∧ a.(price) =
         default (a.(seats) * 49) (PACKAGE_PRICE_TABLE !! (a.(package), a.(seats))))
  ∧ (∀ (p : string) (n : Z),
       truth data.(org_type value) = true →
       truth data.(team_size value) = true →
       truth data.(client_volume value) = true →
       predict_package data.(org_type value) data.(team_size value)
         data.(client_volume value) data.(specialization value)
         data.(service_model value) = Returns (p, n) →
       SALES_MESSAGES !! p = None →
       run data printed =
         ((printed ++ [KeyError p])%list,
          Raises (HTTPExc 500 (exc_str (KeyError p))))).
Proof.
  split.
  - intros a printed'. unfold get_recommendation, attempt. simpl.
    destruct (truth data.(org_type value)); simpl; [| discriminate].
    destruct (truth data.(team_size value)); simpl; [| discriminate].
    destruct (truth data.(client_volume value)); simpl; [| discriminate].
    destruct (predict_package _ _ _ _ _) as [[p n] | e]; [| discriminate].
    destruct (SALES_MESSAGES !! p) as [template |] eqn:Hm; [| discriminate].
    destruct (format _ _ _ _ _) as [text | e]; [| discriminate].
    intros [= <- <-]. simpl. rewrite Hm. eauto 10.
  - intros p n Ho Ht Hc Hp Hm. unfold get_recommendation, attempt. simpl.
    by rewrite Ho, Ht, Hc, Hp, Hm.
Qed.

End Handler.

(** A run with booleans as field values, a predictor that always answers
    "Fresh Start" with 4 seats, and empty tables. *)
Lemma guard_status_is_lost_witness :
  get_recommendation bool id (λ _ _ _ _ _, Returns ("Fresh Start", 4)) ∅ ∅
    (λ _ _ _ _ _, Returns "") (λ _, "error")
    {| org_type := true; team_size := false; client_volume := true;
       specialization := true; service_model := true |} []
  = ([HTTPExc 400 "Missing required fields"], Raises (HTTPExc 500 "error")).
Proof.
  apply (guard_status_is_lost id (λ _ _ _ _ _, Returns ("Fresh Start", 4)) ∅ ∅
           (λ _ _ _ _ _, Returns "") (λ _, "error")
           {| org_type := true; team_size := false; client_volume := true;
              specialization := true; service_model := true |} []).
  right. left. reflexivity.
Defined.

Lemma answer_origin_witness :
  get_recommendation bool id (λ _ _ _ _ _, Returns ("Fresh Start", 4)) ∅ ∅
    (λ _ _ _ _ _, Returns "") (λ _, "error")
    {| org_type := true; team_size := true; client_volume := true;
       specialization := true; service_model := true |} []
  = ([KeyError "Fresh Start"], Raises (HTTPExc 500 "error")).
Proof.
  pose proof (answer_origin id (λ _ _ _ _ _, Returns ("Fresh Start", 4)) ∅ ∅
                (λ _ _ _ _ _, Returns "") (λ _, "error")
                {| org_type := true; team_size := true; client_volume := true;
                   specialization := true; service_model := true |} [])
    as [_ H].
  exact (H "Fresh Start" 4 eq_refl eq_refl eq_refl eq_refl (lookup_empty _)).
Defined.

End CheckpointFacts.
